(** * sisl: build configuration, packaging metadata and minimizer input

    The files modelled here are the two CMake listings that build the
    Cython extension modules ([src/sisl/physics/CMakeLists.txt] and the
    tail of [src/sisl/CMakeLists.txt]), the packaging metadata
    [pyproject.toml], and the shipped minimizer input
    [src/sisl_toolbox/siesta/minimizer/optimize.yaml].

    CMake listings are embedded as command trees and run by a small
    evaluator that expands [foreach] loops and [${var}] references; the
    TOML tables are embedded as the string lists they are and the
    requirement strings are parsed; the YAML document is embedded as a
    tree and searched for variable declarations.

    The tutorial notebook [docs/tutorials/tutorial_siesta_1.ipynb] holds
    the one piece of Python among the sources: the layout of the orbital
    plots and the choice of the HOMO and LUMO states, embedded with
    Python's integer division and exceptions. *)

From Stdlib Require Import String Ascii List Bool ZArith QArith Lia Sorted.
From stdpp Require Import base strings gmap sets.
Import ListNotations.
Open Scope string_scope.
Set Warnings "-register-all".

(** ** CMake listings *)

Module CMake.

(** An argument is a sequence of literal text and [${var}] references:
    [${source}.pyx] is [[Ref "source"; Lit ".pyx"]]. *)
Inductive piece : Type :=
| Lit (text : string)
| Ref (var : string).

Definition arg : Type := list piece.

(** Modelled from the spec: the function [add_cython_library] is defined
    in the project's top-level CMake code, which is not among the
    sources.  A call is taken to build the compiled Cython extension
    library [LIBRARY] from [SOURCE]; the keyword arguments are kept as
    they are passed.  The other commands are CMake's own. *)
Inductive command : Type :=
| set_property (PROPERTY : string) (values : list arg)
| add_cython_library (SOURCE LIBRARY OUTPUT : arg)
| install (TARGETS DESTINATION : arg)
| add_subdirectory (dir : arg)
| foreach (var : string) (items : list arg) (body : list command).

(** What running a listing records. *)
Inductive action : Type :=
| DirectoryProperty (name : string) (values : list string)
| CythonLibrary (source library output : string)
| InstallLibrary (target destination : string)
| SubDirectory (dir : string).

Definition env : Type := list (string * string).

Fixpoint lookup_var (e : env) (v : string) : string :=
  match e with
  | [] => ""
  | (k, x) :: e' => if String.eqb k v then x else lookup_var e' v
  end.

Definition expand_piece (e : env) (p : piece) : string :=
  match p with
  | Lit s => s
  | Ref v => lookup_var e v
  end.

Definition expand (e : env) (a : arg) : string :=
  String.concat "" (List.map (expand_piece e) a).

(** [foreach] runs its body once per item with the loop variable bound
    to the item. *)
Fixpoint run (e : env) (c : command) : list action :=
  match c with
  | set_property p vs => [DirectoryProperty p (List.map (expand e) vs)]
  | add_cython_library s l o =>
      [CythonLibrary (expand e s) (expand e l) (expand e o)]
  | install t d => [InstallLibrary (expand e t) (expand e d)]
  | add_subdirectory d => [SubDirectory (expand e d)]
  | foreach v items body =>
      List.flat_map
        (fun item =>
           let e' := (v, expand e item) :: e in
           List.flat_map (run e') body)
        items
  end.

Definition run_listing (e : env) (l : list command) : list action :=
  List.flat_map (run e) l.

(** Queries on the recorded actions. *)
Definition cython_libraries (acts : list action) : list string :=
  List.flat_map
    (fun a => match a with CythonLibrary _ l _ => [l] | _ => [] end) acts.

Definition install_destinations (acts : list action) (target : string)
  : list string :=
  List.flat_map
    (fun a => match a with
              | InstallLibrary t d => if String.eqb t target then [d] else []
              | _ => []
              end) acts.

Definition subdirectories (acts : list action) : list string :=
  List.flat_map
    (fun a => match a with SubDirectory d => [d] | _ => [] end) acts.

(** Cython libraries that are built and installed, with the directory
    each is installed to. *)
Definition installed_cython (acts : list action) : list (string * string) :=
  List.flat_map
    (fun l => List.map (fun d => (l, d)) (install_destinations acts l))
    (cython_libraries acts).

Definition installed_in (acts : list action) (dest : string) : list string :=
  List.map fst
    (List.filter (fun ld => String.eqb (snd ld) dest) (installed_cython acts)).

Definition var (v : string) : arg := [Ref v].
Definition lit (s : string) : arg := [Lit s].

(** [src/sisl/physics/CMakeLists.txt] *)
Definition physics_listing : list command :=
  [ set_property "INCLUDE_DIRECTORIES"
      [ [Ref "CMAKE_CURRENT_SOURCE_DIR"; Lit "/.."];
        [Ref "CMAKE_CURRENT_SOURCE_DIR"; Lit "/../_core"] ];
    foreach "source"
      [ lit "_bloch"; lit "_phase";
        lit "_matrix_utils";
        lit "_matrix_k"; lit "_matrix_dk"; lit "_matrix_ddk";
        lit "_matrix_phase"; lit "_matrix_phase_sc"; lit "_matrix_phase3" ]
      [ add_cython_library
          [Ref "source"; Lit ".pyx"]
          (var "source")
          [Ref "source"; Lit "_C"];
        install (var "source")
          [Ref "SKBUILD_PROJECT_NAME"; Lit "/physics"] ] ].

(** [src/sisl/CMakeLists.txt], the part from its first [foreach] on. *)
Definition sisl_listing : list command :=
  [ foreach "source" [ lit "_indices"; lit "_math_small" ]
      [ add_cython_library
          [Ref "source"; Lit ".pyx"]
          (var "source")
          [Ref "source"; Lit "_C"];
        install (var "source") (var "SKBUILD_PROJECT_NAME") ];
    foreach "source" [ lit "_sparse_grid_ops" ]
      [ add_cython_library
          [Ref "source"; Lit ".py"]
          (var "source")
          [Ref "source"; Lit "_C"];
        install (var "source") (var "SKBUILD_PROJECT_NAME") ];
    add_subdirectory (lit "_core");
    add_subdirectory (lit "io");
    add_subdirectory (lit "physics");
    add_subdirectory (lit "geom") ].



End CMake.

(** ** Packaging metadata: [pyproject.toml] *)

Module PyProject.

(** [[build-system] requires] *)
Definition build_requires : list string :=
  [ "setuptools_scm[toml]>=6.2";
    "scikit-build-core[pyproject]>=0.8";
    "Cython>=3";
    "numpy>=2.0.0rc1" ].

(** [[project] name] *)
Definition name : string := "sisl".

(** [[project] dependencies] *)
Definition dependencies : list string :=
  [ "numpy>=1.20";
    "scipy>=1.5";
    "pyparsing>=2.2.1";
    "xarray>=0.20" ].

(** [[tool.scikit-build] wheel.packages] *)
Definition wheel_packages : list string :=
  [ "src/sisl"; "src/sisl_toolbox" ].

(** [[project.optional-dependencies]] *)
Definition optional_dependencies : list (string * list string) :=
  [ ("analysis", [ "netCDF4"; "tqdm>=4.36.0" ]);
    ("viz",
      [ "nodify"; "netCDF4"; "dill >= 0.3.2"; "pathos"; "scikit-image";
        "plotly"; "matplotlib"; "ase" ]);
    ("viz-plotly",
      [ "nodify"; "netCDF4"; "dill >= 0.3.2"; "pathos"; "scikit-image";
        "plotly" ]);
    ("viz-matplotlib",
      [ "nodify"; "netCDF4"; "dill >= 0.3.2"; "pathos"; "scikit-image";
        "matplotlib" ]);
    ("viz-blender",
      [ "nodify"; "netCDF4"; "dill >= 0.3.2"; "pathos"; "scikit-image" ]);
    ("viz-ase",
      [ "netCDF4"; "dill >= 0.3.2"; "pathos"; "scikit-image"; "ase" ]);
    ("test",
      [ "pytest>=7"; "coverage[toml]"; "pytest-cov"; "pytest-env";
        "pytest-faulthandler" ]);
    ("docs",
      [ "nbsphinx"; "sphinx-rtd-theme"; "sphinx-design"; "sphinx-gallery";
        "sphinx-copybutton"; "sphinx-togglebutton"; "sphinx-inline-tabs";
        "sphinxcontrib-bibtex"; "importlib-metadata"; "ipykernel";
        "ipywidgets"; "jupyterlab-widgets"; "kaleido"; "pytz";
        "networkx"; "pyvis"; "pybtex"; "pandoc" ]) ].

(** [[tool.pylint.master] extension-pkg-allow-list]; the last two
    entries stand under the comment "external packages required". *)
Definition extension_pkg_allow_list : list string :=
  [ "sisl._math_small";
    "sisl._indices";
    "sisl._core._lattice";
    "sisl.io.siesta._siesta";
    "sisl.physics._bloch";
    "sisl.physics._matrix_k";
    "sisl.physics._matrix_dk";
    "sisl.physics._matrix_ddk";
    "numpy";
    "scipy" ].

(** [[project] requires-python] *)
Definition requires_python : string := ">=3.9".

(** [[project] classifiers] *)
Definition classifiers : list string :=
  [ "Development Status :: 5 - Production/Stable";
    "Environment :: Console";
    "Intended Audience :: Science/Research";
    "Intended Audience :: Developers";
    "License :: OSI Approved :: Mozilla Public License 2.0 (MPL 2.0)";
    "Programming Language :: C";
    "Programming Language :: Fortran";
    "Programming Language :: Python";
    "Programming Language :: Python :: 3.9";
    "Programming Language :: Python :: 3.10";
    "Programming Language :: Python :: 3.11";
    "Programming Language :: Python :: 3.12";
    "Programming Language :: Python :: 3 :: Only";
    "Programming Language :: Python :: Implementation :: CPython";
    "Topic :: Software Development";
    "Topic :: Scientific/Engineering";
    "Topic :: Scientific/Engineering :: Physics";
    "Operating System :: OS Independent" ].

(** [[project.scripts]] *)
Definition scripts : list (string * string) :=
  [ ("sgeom", "sisl._core.geometry:sgeom");
    ("sgrid", "sisl._core.grid:sgrid");
    ("sdata", "sisl.utils._sisl_cmd:sisl_cmd");
    ("stoolbox", "sisl_toolbox.cli:stoolbox_cli") ].

(** [[tool.coverage.run] source_pkgs] *)
Definition source_pkgs : list string := [ "sisl"; "sisl_toolbox" ].

(** [[tool.isort] known_first_party] *)
Definition known_first_party : list string := [ "sisl_toolbox"; "sisl" ].

(** [[tool.tox] legacy_tox_ini], the value of [envlist] *)
Definition envlist : string := "py39,py310,py311,py312".

(** [[tool.black] target-version] *)
Definition target_version : list string :=
  [ "py39"; "py310"; "py311"; "py312" ].

(** The requirements of an optional-dependency group. *)
Definition group (g : string) : list string :=
  match List.find (fun kv => String.eqb (fst kv) g) optional_dependencies with
  | Some kv => snd kv
  | None => []
  end.

(** Every table of requirement strings. *)
Definition requirement_tables : list (list string) :=
  build_requires :: dependencies :: List.map snd optional_dependencies.

End PyProject.

(** ** The build as scikit-build-core runs it

    scikit-build-core defines [SKBUILD_PROJECT_NAME] as the project name
    of [pyproject.toml] before it runs the listings. *)

Module Build.

Definition skbuild_env (source_dir : string) : CMake.env :=
  [ ("SKBUILD_PROJECT_NAME", PyProject.name);
    ("CMAKE_CURRENT_SOURCE_DIR", source_dir) ].

Definition physics_actions : list CMake.action :=
  CMake.run_listing (skbuild_env "src/sisl/physics") CMake.physics_listing.

Definition sisl_actions : list CMake.action :=
  CMake.run_listing (skbuild_env "src/sisl") CMake.sisl_listing.

(** The Cython libraries installed into the physics package, as a set. *)
Definition physics_kernels : gset string :=
  list_to_set (CMake.installed_in physics_actions (PyProject.name +:+ "/physics")).


(** Import paths.  A library installed to [sisl/physics] under the name
    [_bloch] is imported as [sisl.physics._bloch]. *)
Fixpoint replace_char (a b : ascii) (s : string) : string :=
  match s with
  | String c s' => String (if Ascii.eqb c a then b else c) (replace_char a b s')
  | EmptyString => EmptyString
  end.

Definition import_path (lib_dest : string * string) : string :=
  replace_char "/" "." (snd lib_dest) +:+ "." +:+ fst lib_dest.

(** Splits a dotted name at its last dot. *)
Fixpoint split_last_dot (s : string) : option (string * string) :=
  match s with
  | String c s' =>
      match split_last_dot s' with
      | Some (a, b) => Some (String c a, b)
      | None => if Ascii.eqb c "." then Some ("", s') else None
      end
  | EmptyString => None
  end.

Definition package_of (m : string) : string :=
  match split_last_dot m with Some (a, _) => a | None => "" end.

Definition module_name (m : string) : string :=
  match split_last_dot m with Some (_, b) => b | None => m end.

Definition directory_of (pkg : string) : string := replace_char "." "/" pkg.

(** The listing that builds the modules of a package. *)
Definition actions_of (pkg : string) : list CMake.action :=
  if String.eqb pkg (PyProject.name +:+ ".physics") then physics_actions
  else if String.eqb pkg PyProject.name then sisl_actions
  else [].

Definition all_actions : list CMake.action := sisl_actions ++ physics_actions.

(** The extension modules that the two listings build and install. *)
Definition extension_modules : list string :=
  List.map import_path
    (CMake.installed_cython sisl_actions
     ++ CMake.installed_cython physics_actions).

Definition built (m : string) : bool :=
  List.existsb (String.eqb m) extension_modules.

(** The targets that a listing installs. *)
Definition installed_targets (acts : list CMake.action) : list string :=
  List.flat_map
    (fun a => match a with CMake.InstallLibrary t _ => [t] | _ => [] end) acts.

Fixpoint is_prefix (p s : string) : bool :=
  match p, s with
  | EmptyString, _ => true
  | String a p', String b s' => Ascii.eqb a b && is_prefix p' s'
  | String _ _, EmptyString => false
  end.

(** A file is shipped in the wheel when it lies in a wheel package. *)
Definition shipped (file : string) : bool :=
  List.existsb (fun pkg => is_prefix (pkg +:+ "/") file)
    PyProject.wheel_packages.

End Build.

(** ** Versions and requirement strings

    The requirement strings of [pyproject.toml] are read by the build
    front end with the version scheme of PEP 440.  The ordering below is
    the comparison key of that scheme: epoch, release with trailing
    zeros dropped, then the pre-, post- and development-release parts,
    where a missing part sorts as the scheme says. *)

Module Version.

Inductive pre_kind : Type := Alpha | Beta | Candidate.

Record version : Type := mk_version {
  epoch : N;
  release : list N;
  pre : option (pre_kind * N);
  post : option N;
  dev : option N }.

(** A key part is a value or one of the two infinities. *)
Inductive ext (A : Type) : Type :=
| NegInf
| Fin (a : A)
| PosInf.
Arguments NegInf {A}.
Arguments Fin {A} a.
Arguments PosInf {A}.

Definition lex (c d : comparison) : comparison :=
  match c with Eq => d | _ => c end.

Definition compare_ext {A} (cmp : A -> A -> comparison) (x y : ext A)
  : comparison :=
  match x, y with
  | NegInf, NegInf => Eq
  | NegInf, _ => Lt
  | _, NegInf => Gt
  | PosInf, PosInf => Eq
  | PosInf, _ => Gt
  | _, PosInf => Lt
  | Fin a, Fin b => cmp a b
  end.

Definition kind_rank (k : pre_kind) : N :=
  match k with Alpha => 0 | Beta => 1 | Candidate => 2 end.

Definition compare_pre (p q : pre_kind * N) : comparison :=
  lex (N.compare (kind_rank (fst p)) (kind_rank (fst q)))
      (N.compare (snd p) (snd q)).

Fixpoint compare_release (a b : list N) : comparison :=
  match a, b with
  | [], [] => Eq
  | [], _ :: _ => Lt
  | _ :: _, [] => Gt
  | x :: a', y :: b' => lex (N.compare x y) (compare_release a' b')
  end.

Fixpoint drop_zeros (l : list N) : list N :=
  match l with
  | 0%N :: l' => drop_zeros l'
  | _ => l
  end.

Definition key_release (v : version) : list N :=
  List.rev (drop_zeros (List.rev (release v))).

Definition key_pre (v : version) : ext (pre_kind * N) :=
  match pre v, post v, dev v with
  | None, None, Some _ => NegInf
  | None, _, _ => PosInf
  | Some p, _, _ => Fin p
  end.

Definition key_post (v : version) : ext N :=
  match post v with None => NegInf | Some n => Fin n end.

Definition key_dev (v : version) : ext N :=
  match dev v with None => PosInf | Some n => Fin n end.

Definition compare (v w : version) : comparison :=
  lex (N.compare (epoch v) (epoch w))
 (lex (compare_release (key_release v) (key_release w))
 (lex (compare_ext compare_pre (key_pre v) (key_pre w))
 (lex (compare_ext N.compare (key_post v) (key_post w))
      (compare_ext N.compare (key_dev v) (key_dev w))))).

(** The clause [>= w]: inclusive ordered comparison. *)
Definition ge (v w : version) : bool :=
  match compare v w with Lt => false | _ => true end.

Definition final (r : list N) : version := mk_version 0 r None None None.

(** Each version of the list is strictly below the next one. *)
Fixpoint increasing (l : list version) : bool :=
  match l with
  | v :: ((w :: _) as l') =>
      match compare v w with Lt => increasing l' | _ => false end
  | _ => true
  end.

(** The laws of a three-way comparison of a total preorder. *)
Record ordering {A : Type} (cmp : A -> A -> comparison) : Prop := mk_ordering {
  ord_sym : forall x y, cmp y x = CompOpp (cmp x y);
  ord_eq : forall x y z, cmp x y = Eq -> cmp x z = cmp y z;
  ord_lt : forall x y z, cmp x y = Lt -> cmp y z = Lt -> cmp x z = Lt }.

End Version.

Module Requirement.
Import Version.

Definition is_digit (c : ascii) : bool :=
  let n := N_of_ascii c in ((48 <=? n) && (n <=? 57))%N.

Definition is_letter (c : ascii) : bool :=
  let n := N_of_ascii c in
  (((65 <=? n) && (n <=? 90)) || ((97 <=? n) && (n <=? 122)))%N.

Definition digit_value (c : ascii) : N := (N_of_ascii c - 48)%N.

Definition starts_with_digit (s : string) : bool :=
  match s with
  | String c _ => is_digit c
  | EmptyString => false
  end.

(** Reads the leading decimal digits of [s] onto [acc]. *)
Fixpoint digits (acc : N) (s : string) : N * string :=
  match s with
  | String c s' =>
      if is_digit c then digits (10 * acc + digit_value c)%N s' else (acc, s)
  | EmptyString => (acc, s)
  end.

Definition number (s : string) : option (N * string) :=
  if starts_with_digit s then Some (digits 0 s) else None.

Fixpoint strip_prefix (p s : string) : option string :=
  match p, s with
  | EmptyString, _ => Some s
  | String a p', String b s' =>
      if Ascii.eqb a b then strip_prefix p' s' else None
  | String _ _, EmptyString => None
  end.

Fixpoint span (p : ascii -> bool) (s : string) : string * string :=
  match s with
  | String c s' =>
      if p c then let (a, b) := span p s' in (String c a, b) else ("", s)
  | EmptyString => ("", "")
  end.

(** Reads [N(.N)*]; [cur] is the value of the segment being read.  A dot
    that no digit follows is left in the input. *)
Fixpoint release_from (cur : N) (s : string) : list N * string :=
  match s with
  | String c s' =>
      if is_digit c then release_from (10 * cur + digit_value c)%N s'
      else if Ascii.eqb c "." && starts_with_digit s' then
        let (r, rest) := release_from 0 s' in (cur :: r, rest)
      else ([cur], s)
  | EmptyString => ([cur], s)
  end.

Definition tagged_number (tag s : string) : option (N * string) :=
  match strip_prefix tag s with
  | Some r => number r
  | None => None
  end.

Definition parse_pre (s : string) : option (pre_kind * N) * string :=
  match tagged_number "rc" s with
  | Some (n, r) => (Some (Candidate, n), r)
  | None =>
    match tagged_number "a" s with
    | Some (n, r) => (Some (Alpha, n), r)
    | None =>
      match tagged_number "b" s with
      | Some (n, r) => (Some (Beta, n), r)
      | None => (None, s)
      end
    end
  end.

Definition parse_tagged (tag s : string) : option N * string :=
  match tagged_number tag s with
  | Some (n, r) => (Some n, r)
  | None => (None, s)
  end.

(** Canonical public versions without epoch:
    [N(.N)*[{a|b|rc}N][.postN][.devN]]. *)
Definition parse_version (s : string) : option version :=
  if starts_with_digit s then
    let (rel, s1) := release_from 0 s in
    let (p, s2) := parse_pre s1 in
    let (po, s3) := parse_tagged ".post" s2 in
    let (d, s4) := parse_tagged ".dev" s3 in
    match s4 with
    | EmptyString => Some (mk_version 0 rel p po d)
    | String _ _ => None
    end
  else None.

Record requirement : Type := mk_requirement {
  req_name : string;
  req_extras : string;
  req_lower : option version }.

Definition is_name_char (c : ascii) : bool :=
  is_letter c || is_digit c
  || Ascii.eqb c "-" || Ascii.eqb c "_" || Ascii.eqb c ".".

Fixpoint skip_spaces (s : string) : string :=
  match s with
  | String c s' => if Ascii.eqb c " " then skip_spaces s' else s
  | EmptyString => s
  end.

Definition parse_extras (s : string) : option (string * string) :=
  match s with
  | String "[" r =>
      let (e, r') := span (fun c => negb (Ascii.eqb c "]")) r in
      match r' with
      | String _ r'' => Some (e, r'')
      | EmptyString => None
      end
  | _ => Some ("", s)
  end.

(** A requirement is a name, optional extras, and either nothing or
    one clause [>= version]; every requirement in [pyproject.toml] has
    this form. *)
Definition parse (s : string) : option requirement :=
  let (name, r1) := span is_name_char s in
  match name, parse_extras r1 with
  | String _ _, Some (extras, r2) =>
      match skip_spaces r2 with
      | EmptyString => Some (mk_requirement name extras None)
      | r3 =>
          match strip_prefix ">=" r3 with
          | Some r4 =>
              match parse_version (skip_spaces r4) with
              | Some v => Some (mk_requirement name extras (Some v))
              | None => None
              end
          | None => None
          end
      end
  | _, _ => None
  end.

(** The lower bounds that the requirements of [reqs] put on [pkg]. *)
Definition lower_bounds (pkg : string) (reqs : list string) : list version :=
  List.flat_map
    (fun s =>
       match parse s with
       | Some r =>
           if String.eqb (req_name r) pkg then
             match req_lower r with Some v => [v] | None => [] end
           else []
       | None => []
       end) reqs.

(** A version satisfies a requirement list for [pkg] when it meets
    every lower bound. *)
Definition satisfies (pkg : string) (reqs : list string) (v : version) : bool :=
  List.forallb (fun w => ge v w) (lower_bounds pkg reqs).

Definition well_formed (reqs : list string) : bool :=
  List.forallb (fun s => match parse s with Some _ => true | None => false end)
    reqs.

End Requirement.

(** ** The minimizer input: [optimize.yaml] *)

Module Yaml.

(** Plain scalars that are numbers are kept as exact decimals; every
    other plain scalar is a string. *)
Inductive yaml : Type :=
| YNum (q : Q)
| YStr (s : string)
| YSeq (items : list yaml)
| YMap (entries : list (string * yaml)).

Fixpoint lookup (k : string) (l : list (string * yaml)) : option yaml :=
  match l with
  | [] => None
  | (k', y) :: l' => if String.eqb k k' then Some y else lookup k l'
  end.

Definition has_key (k : string) (l : list (string * yaml)) : bool :=
  match lookup k l with Some _ => true | None => false end.

(** A value is declared as a variable by a mapping with the keys
    [initial], [bounds] and [delta]; anything else is a parameter. *)
Definition declares_variable (y : yaml) : bool :=
  match y with
  | YMap l => has_key "initial" l && has_key "bounds" l && has_key "delta" l
  | _ => false
  end.

Record variable : Type := mk_variable {
  initial : Q;
  lower : Q;
  upper : Q;
  delta : Q }.

Definition as_variable (y : yaml) : option variable :=
  match y with
  | YMap l =>
      match lookup "initial" l, lookup "bounds" l, lookup "delta" l with
      | Some (YNum i), Some (YSeq [YNum a; YNum b]), Some (YNum d) =>
          Some (mk_variable i a b d)
      | _, _, _ => None
      end
  | _ => None
  end.

(** The initial point lies in the search interval and the step fits
    into it. *)
Definition in_range (v : variable) : Prop :=
  (lower v <= initial v /\ initial v <= upper v /\
   0 < delta v /\ delta v <= upper v - lower v)%Q.

Definition Qlt_bool (a b : Q) : bool := negb (Qle_bool b a).

Definition in_range_b (v : variable) : bool :=
  Qle_bool (lower v) (initial v) && Qle_bool (initial v) (upper v)
  && Qlt_bool 0 (delta v) && Qle_bool (delta v) (upper v - lower v).

(** Every node of a document with the keys that lead to it. *)
Fixpoint nodes (path : list string) (y : yaml) : list (list string * yaml) :=
  (path, y) ::
  match y with
  | YSeq items => List.flat_map (nodes path) items
  | YMap entries =>
      List.flat_map (fun kv => nodes (path ++ [fst kv]) (snd kv)) entries
  | _ => []
  end.

Definition declared_variables (doc : yaml) : list (list string * yaml) :=
  List.filter (fun py => declares_variable (snd py)) (nodes [] doc).

(** The check of one node: a declared variable must be well formed and
    in range. *)
Definition checked (py : list string * yaml) : bool :=
  implb (declares_variable (snd py))
    match as_variable (snd py) with
    | Some v => in_range_b v
    | None => false
    end.

Definition var (i a b d : Q) : yaml :=
  YMap [ ("initial", YNum i); ("bounds", YSeq [YNum a; YNum b]);
         ("delta", YNum d) ].

Definition optimize_yaml_path : string :=
  "src/sisl_toolbox/siesta/minimizer/optimize.yaml".

(** [src/sisl_toolbox/siesta/minimizer/optimize.yaml] *)
Definition optimize_yaml : yaml :=
  YMap [
    ("atom_Al", YMap [
      ("element", YStr "Al");
      ("pseudo", YMap [
        ("define",
          YSeq [ YStr "NEW_CC"; YStr "FREE_FORMAT_RC_INPUT";
                 YStr "NO_PS_CUTOFFS" ]);
        ("flavor", YStr "tm2");
        ("xc", YStr "pb");
        ("equation", YStr "r");
        ("core-correction", YStr "1.2647821553 Bohr") ]);
      ("3s", YMap [
        ("pseudo", YMap [
          ("cutoff", var 1.2 0.8 2.3 0.1);
          ("charge", YNum 2) ]);
        ("basis", YMap [
          ("soft-confinement", YMap [
            ("V0", var 0 0 1000 50);
            ("ri", var (-0.8) (-0.95) (-0.5) 0.08) ]);
          ("zeta1", var 2.4 1 5.5 0.5);
          ("zeta2", var 1.6 1 5.5 0.5) ]) ]);
      ("3p", YMap [
        ("pseudo", YMap [
          ("cutoff", var 1.1 0.8 2.3 0.1);
          ("charge", YNum 1) ]);
        ("basis", YMap [
          ("soft-confinement", YMap [
            ("V0", var 0 0 1000 50);
            ("ri", var (-0.8) (-0.95) (-0.5) 0.08) ]);
          ("zeta1", var 2.4 1 5.5 0.25);
          ("zeta2", var 2.0 1 5.5 0.25) ]) ]);
      ("3d", YMap [
        ("pseudo", YMap [
          ("cutoff", var 1.15 0.8 2.3 0.1) ]);
        ("basis", YMap [
          ("charge-confinement", YMap [
            ("charge", var 0 0 5 0.5);
            ("yukawa", var 0 0 3 0.5);
            ("width", var 0.0053 0.0 0.5 0.05) ]);
          ("soft-confinement", YMap [
            ("V0", var 0 0 1000 50);
            ("ri", var (-0.8) (-0.95) (-0.5) 0.08) ]);
          ("zeta1", var 2.4 1 5.5 0.25) ]) ]);
      ("4f", YMap [
        ("pseudo", YMap [
          ("cutoff", var 1.2 0.8 2.3 0.1) ]) ]) ]) ].

End Yaml.

(** ** Names and versions in the metadata tables *)

Module Metadata.
Import Version Requirement.

(** A specifier of the form [>=version], as [requires-python] has it. *)
Definition parse_lower_bound (s : string) : option version :=
  match strip_prefix ">=" (skip_spaces s) with
  | Some r => parse_version (skip_spaces r)
  | None => None
  end.

(** The Python version that a trove classifier
    [Programming Language :: Python :: X.Y] names. *)
Definition classifier_python (c : string) : option version :=
  match strip_prefix "Programming Language :: Python :: " c with
  | Some r => parse_version r
  | None => None
  end.

(** The Python version of an environment name [pyXY]: one digit for the
    major version, the rest for the minor version. *)
Definition env_python (s : string) : option version :=
  match strip_prefix "py" s with
  | Some (String c r) =>
      if is_digit c then
        match number r with
        | Some (n, EmptyString) => Some (final [digit_value c; n])
        | _ => None
        end
      else None
  | _ => None
  end.

Fixpoint split_on (sep : ascii) (s : string) : list string :=
  match s with
  | EmptyString => [EmptyString]
  | String c s' =>
      if Ascii.eqb c sep then EmptyString :: split_on sep s'
      else
        match split_on sep s' with
        | x :: l => String c x :: l
        | [] => [String c EmptyString]
        end
  end.

Definition versions_of (f : string -> option version) (l : list string)
  : list version :=
  List.flat_map (fun s => match f s with Some v => [v] | None => [] end) l.

(** The Python versions that the classifiers advertise. *)
Definition supported_pythons : list version :=
  versions_of classifier_python PyProject.classifiers.

(** The top-level package of an entry point [pkg.mod:function]. *)
Definition top_level (entry : string) : string :=
  fst (span (fun c => negb (Ascii.eqb c "." || Ascii.eqb c ":")) entry).

(** The last component of a path. *)
Definition basename (path : string) : string :=
  List.last (split_on "/" path) EmptyString.

End Metadata.

(** ** The tutorial notebook: [tutorial_siesta_1.ipynb]

    Exceptions are the left summand of the result; [matplotlib] and
    [numpy] enter only through the shape of what [plt.subplots] returns
    and through indexing. *)

Module Tutorial.

Inductive exn : Type :=
| ZeroDivisionError
| IndexError
| TypeError
| ValueError
| AttributeError.

Definition result (A : Type) : Type := (exn + A)%type.

Definition ret {A} (a : A) : result A := inr a.
Definition raise {A} (e : exn) : result A := inl e.

Definition bind {A B} (m : result A) (k : A -> result B) : result B :=
  match m with
  | inl e => inl e
  | inr a => k a
  end.

Notation "x <- m ;; k" := (bind m (fun x => k))
  (at level 100, m at next level, right associativity).

(** A loop body run over a list; the first exception ends the loop. *)
Fixpoint traverse {A B} (f : A -> result B) (l : list A) : result (list B) :=
  match l with
  | [] => ret []
  | x :: l' => y <- f x ;; ys <- traverse f l' ;; ret (y :: ys)
  end.

(** Python's [a // b]. *)
Definition floordiv (a b : Z) : result Z :=
  if (b =? 0)%Z then raise ZeroDivisionError else ret (a / b)%Z.

(** Python's [range(a, b)]. *)
Definition range (a b : Z) : list Z :=
  List.map (fun k => (a + Z.of_nat k)%Z) (List.seq 0 (Z.to_nat (b - a))).

(** The loop [i = 0; for x in l: ...; i += 1] pairs each element with
    its counter. *)
Fixpoint enumerate_from {A} (i : Z) (l : list A) : list (Z * A) :=
  match l with
  | [] => []
  | x :: l' => (i, x) :: enumerate_from (i + 1)%Z l'
  end.

(** An axes object is named by its row and column in the figure. *)
Definition cell : Type := (Z * Z)%type.

(** What [plt.subplots(nx, ny)] returns with the default [squeeze]: the
    axes object itself for one cell, a vector for one row or one
    column, a two-dimensional array otherwise. *)
Inductive axes_array : Type :=
| OneAxes
| AxesRow (ny : Z)
| AxesColumn (nx : Z)
| AxesGrid (nx ny : Z).

Definition subplots (nx ny : Z) : result axes_array :=
  if ((nx <=? 0) || (ny <=? 0))%Z then raise ValueError
  else if ((nx =? 1) && (ny =? 1))%Z then ret OneAxes
  else if (nx =? 1)%Z then ret (AxesRow ny)
  else if (ny =? 1)%Z then ret (AxesColumn nx)
  else ret (AxesGrid nx ny).

(** Indexing an axis of length [n]: negative indices count from the
    end. *)
Definition index (n k : Z) : result Z :=
  if ((0 <=? k) && (k <? n))%Z then ret k
  else if ((- n <=? k) && (k <? 0))%Z then ret (k + n)%Z
  else raise IndexError.

(** The value of [axs[k]]: an axes object or a row of the grid. *)
Inductive item : Type :=
| Axes (c : cell)
| Row (row ny : Z).

Definition getitem (axs : axes_array) (k : Z) : result item :=
  match axs with
  | OneAxes => raise TypeError
  | AxesRow ny => k' <- index ny k ;; ret (Axes (0, k')%Z)
  | AxesColumn nx => k' <- index nx k ;; ret (Axes (k', 0)%Z)
  | AxesGrid nx ny => k' <- index nx k ;; ret (Row k' ny)
  end.

Definition getitem_item (it : item) (k : Z) : result item :=
  match it with
  | Axes _ => raise TypeError
  | Row row ny => k' <- index ny k ;; ret (Axes (row, k'))
  end.

(** Using the selected object as an axes object ([ax.imshow],
    [fig.delaxes(ax)]). *)
Definition as_axes (it : item) : result cell :=
  match it with
  | Axes c => ret c
  | Row _ _ => raise AttributeError
  end.

(** [c, r = i // 4, (i - 4) % 4] and the choice of [ax]. *)
Definition select (nx : Z) (axs : axes_array) (i : Z) : result cell :=
  let c := (i / 4)%Z in
  let r := ((i - 4) mod 4)%Z in
  ax <- (if (nx =? 1)%Z then getitem axs r
         else row <- getitem axs c ;; getitem_item row r) ;;
  as_axes ax.

Record figure (orbital : Type) : Type := mk_figure {
  shape : Z * Z;
  images : list (cell * orbital);
  removed : list cell }.
Arguments mk_figure {orbital}.
Arguments shape {orbital}.
Arguments images {orbital}.
Arguments removed {orbital}.

(** [plot_atom(atom)]: an atom is the list of its orbitals. *)
Definition plot_atom {orbital} (atom : list orbital) : result (figure orbital) :=
  let no := Z.of_nat (length atom) in
  nx <- floordiv no 4 ;;
  ny <- floordiv no nx ;;
  let nx := if (nx * ny <? no)%Z then (nx + 1)%Z else nx in
  axs <- subplots nx ny ;;
  imgs <- traverse
            (fun io => ax <- select nx axs (fst io) ;; ret (ax, snd io))
            (enumerate_from 0 atom) ;;
  let i := no in
  rem <- (if (i <? nx * ny)%Z
          then traverse (select nx axs) (range i (nx * ny))
          else ret []) ;;
  ret (mk_figure (nx, ny) imgs rem).

(** The cells of a grid, row by row. *)
Definition row_major (nx ny : Z) : list cell :=
  List.flat_map (fun c => List.map (fun r => (c, r)) (range 0 ny)) (range 0 nx).

(** The cell at position [i] of a four-column grid counted row by row. *)
Definition cell_of (i : Z) : cell := ((i / 4)%Z, (i mod 4)%Z).

(** [es.eig > 0], entry by entry. *)
Definition positive (x : Q) : bool := negb (Qle_bool x 0).

(** [mask.nonzero()[0]]: the indices of the true entries. *)
Definition nonzero (mask : list bool) : list Z :=
  List.map fst (List.filter snd (enumerate_from 0 mask)).

(** [l[0]] *)
Definition first {A} (l : list A) : result A :=
  match l with
  | [] => raise IndexError
  | x :: _ => ret x
  end.

(** [idx_lumo = (es.eig > 0).nonzero()[0][0]] *)
Definition idx_lumo (eig : list Q) : result Z :=
  first (nonzero (List.map positive eig)).


End Tutorial.

(** * Properties *)

(** ** Membership in concrete lists *)

Ltac in_list :=
  solve [ vm_compute; repeat first [ left; reflexivity | right ] ].

Ltac each_member H :=
  vm_compute in H;
  repeat (destruct H as [H | H]; [ subst | ]); [ .. | contradiction ].

(** Splits [atom] into its elements when [H] bounds its length. *)
Ltac by_length atom H :=
  repeat (destruct atom as [| ? atom];
          [ try (exfalso; cbn [length] in H; lia)
          | try (exfalso; cbn [length] in H; lia) ]).

(** ** The physics kernels *)

Section PhysicsKernels.

Import CMake Build.

Lemma physics_actions_installed :
  installed_cython physics_actions =
  List.map (fun l => (l, "sisl/physics"))
    [ "_bloch"; "_phase"; "_matrix_utils"; "_matrix_k"; "_matrix_dk";
      "_matrix_ddk"; "_matrix_phase"; "_matrix_phase_sc"; "_matrix_phase3" ].
Proof. reflexivity. Qed.

(** C1. The Cython libraries that the physics listing builds and
    installs into the physics package are exactly [_bloch], [_phase],
    [_matrix_utils], [_matrix_k], [_matrix_dk], [_matrix_ddk],
    [_matrix_phase], [_matrix_phase_sc] and [_matrix_phase3]; the listing
    builds no other Cython library, and the set holds the Bloch
    unfolding kernel, the k-matrix kernel and the kernels of the first
    and second k-derivative. *)
Theorem physics_kernels_exact :
  physics_kernels =
    {[ "_bloch"; "_phase"; "_matrix_utils"; "_matrix_k"; "_matrix_dk";
       "_matrix_ddk"; "_matrix_phase"; "_matrix_phase_sc";
       "_matrix_phase3" ]}
  /\ cython_libraries physics_actions
     = installed_in physics_actions (PyProject.name +:+ "/physics")
  /\ {[ "_bloch"; "_matrix_k"; "_matrix_dk"; "_matrix_ddk" ]}
     ⊆ physics_kernels.
Proof.
  split; [|split].
  - vm_compute. reflexivity.
  - reflexivity.
  - apply (bool_decide_unpack _). vm_compute. exact I.
Qed.

End PhysicsKernels.

(** ** What the build installs and what the allow-list names *)

Section ExtensionModules.

Import CMake Build.

Lemma extension_modules_eq :
  extension_modules =
    [ "sisl._indices"; "sisl._math_small"; "sisl._sparse_grid_ops";
      "sisl.physics._bloch"; "sisl.physics._phase";
      "sisl.physics._matrix_utils"; "sisl.physics._matrix_k";
      "sisl.physics._matrix_dk"; "sisl.physics._matrix_ddk";
      "sisl.physics._matrix_phase"; "sisl.physics._matrix_phase_sc";
      "sisl.physics._matrix_phase3" ].
Proof. reflexivity. Qed.

Lemma built_spec m : built m = true <-> In m extension_modules.
Proof.
  unfold built. rewrite existsb_exists. split.
  - intros (x & Hx & E). apply String.eqb_eq in E. now subst.
  - intros H. exists m. split; [exact H | apply String.eqb_refl].
Qed.

(** C10. Each of [sisl.physics._bloch], [sisl.physics._matrix_k],
    [sisl.physics._matrix_dk], [sisl.physics._matrix_ddk],
    [sisl._indices] and [sisl._math_small] is named in the allow-list,
    is built as a Cython library of that name by the listing of its
    package, and is installed by that listing to the one directory that
    matches its dotted path: [<project>/physics] for the physics
    kernels, [<project>] for the other two. *)
Theorem allow_listed_modules_built :
  forall m,
    In m [ "sisl.physics._bloch"; "sisl.physics._matrix_k";
           "sisl.physics._matrix_dk"; "sisl.physics._matrix_ddk";
           "sisl._indices"; "sisl._math_small" ] ->
    let acts := actions_of (package_of m) in
    let dest := directory_of (package_of m) in
    In m PyProject.extension_pkg_allow_list
    /\ In (module_name m) (cython_libraries acts)
    /\ install_destinations acts (module_name m) = [dest]
    /\ import_path (module_name m, dest) = m
    /\ ((package_of m = PyProject.name +:+ ".physics"
         /\ dest = PyProject.name +:+ "/physics")
        \/ (package_of m = PyProject.name /\ dest = PyProject.name)).
Proof.
  intros m H. each_member H.
  all: repeat split; try reflexivity; try in_list.
  all: first [ left; split; reflexivity | right; split; reflexivity ].
Qed.

Lemma allow_listed_modules_built_witness :
  In "sisl.physics._matrix_dk" PyProject.extension_pkg_allow_list
  /\ install_destinations physics_actions "_matrix_dk" = ["sisl/physics"].
Proof.
  destruct (allow_listed_modules_built "sisl.physics._matrix_dk")
    as (Ha & _ & Hd & _).
  - in_list.
  - split; [exact Ha | exact Hd].
Defined.

(** Against C7 as stated: the allow-list does not name only the
    extension modules of [sisl] and [sisl.physics].  It names [numpy],
    which the listings do not build and which is not even a module of
    the project. *)
Lemma allow_list_not_only_sisl_modules :
  ~ (forall m, In m PyProject.extension_pkg_allow_list ->
               In m extension_modules
               \/ is_prefix (PyProject.name +:+ ".") m = true).
Proof.
  intros H. destruct (H "numpy") as [Hin | Hpre]; [in_list | |].
  - each_member Hin; discriminate.
  - discriminate.
Qed.

(** C7, as the build and the allow-list have it.  Every target that the
    two listings install is built as a Cython library and every Cython
    library is installed; the import path of each lies in the package
    [sisl] or [sisl.physics]; every allow-listed module of these two
    packages is among them.  The other allow-listed names are the
    modules [sisl._core._lattice] and [sisl.io.siesta._siesta] of two
    sub-packages and the external packages [numpy] and [scipy]. *)
Theorem extension_modules_and_allow_list :
  (forall t, In t (installed_targets all_actions) ->
             In t (cython_libraries all_actions))
  /\ (forall l, In l (cython_libraries all_actions) ->
                exists d, In (import_path (l, d)) extension_modules)
  /\ (forall m, In m extension_modules ->
                In (package_of m)
                   [PyProject.name; PyProject.name +:+ ".physics"])
  /\ (forall m, In m PyProject.extension_pkg_allow_list ->
                In (package_of m)
                   [PyProject.name; PyProject.name +:+ ".physics"] ->
                In m extension_modules)
  /\ List.filter (fun m => negb (built m)) PyProject.extension_pkg_allow_list
     = [ "sisl._core._lattice"; "sisl.io.siesta._siesta"; "numpy"; "scipy" ].
Proof.
  split; [| split; [| split; [| split]]].
  - intros t H. each_member H; in_list.
  - intros l H. each_member H.
    1-3: exists "sisl"; in_list.
    all: exists "sisl/physics"; in_list.
  - intros m H. each_member H; in_list.
  - intros m H P. each_member H; try in_list.
    all: exfalso; each_member P; discriminate.
  - reflexivity.
Qed.

Lemma extension_modules_and_allow_list_witness :
  In "sisl.physics._bloch" extension_modules.
Proof.
  apply (proj1 (proj2 (proj2 (proj2 extension_modules_and_allow_list)))
           "sisl.physics._bloch").
  - in_list.
  - in_list.
Defined.

End ExtensionModules.

(** ** Subsystems outside the kernels *)

Section Subsystems.

Import CMake Build.

Lemma minimizer_variable_paths :
  List.map fst (Yaml.declared_variables Yaml.optimize_yaml) =
    [ ["atom_Al"; "3s"; "pseudo"; "cutoff"];
      ["atom_Al"; "3s"; "basis"; "soft-confinement"; "V0"];
      ["atom_Al"; "3s"; "basis"; "soft-confinement"; "ri"];
      ["atom_Al"; "3s"; "basis"; "zeta1"];
      ["atom_Al"; "3s"; "basis"; "zeta2"];
      ["atom_Al"; "3p"; "pseudo"; "cutoff"];
      ["atom_Al"; "3p"; "basis"; "soft-confinement"; "V0"];
      ["atom_Al"; "3p"; "basis"; "soft-confinement"; "ri"];
      ["atom_Al"; "3p"; "basis"; "zeta1"];
      ["atom_Al"; "3p"; "basis"; "zeta2"];
      ["atom_Al"; "3d"; "pseudo"; "cutoff"];
      ["atom_Al"; "3d"; "basis"; "charge-confinement"; "charge"];
      ["atom_Al"; "3d"; "basis"; "charge-confinement"; "yukawa"];
      ["atom_Al"; "3d"; "basis"; "charge-confinement"; "width"];
      ["atom_Al"; "3d"; "basis"; "soft-confinement"; "V0"];
      ["atom_Al"; "3d"; "basis"; "soft-confinement"; "ri"];
      ["atom_Al"; "3d"; "basis"; "zeta1"];
      ["atom_Al"; "4f"; "pseudo"; "cutoff"] ].
Proof. reflexivity. Qed.

(** C6. The package-root listing adds the sub-directories [io], [geom]
    and [_core]; the minimizer input lies in a package that the wheel
    ships and declares variables for the pseudopotential and for the
    basis set; and the optional-dependency table has the groups [viz],
    [viz-plotly], [viz-matplotlib], [viz-blender] and [viz-ase]. *)
Theorem out_of_scope_subsystems_present :
  Forall (fun d => In d (subdirectories sisl_actions)) ["io"; "geom"; "_core"]
  /\ shipped Yaml.optimize_yaml_path = true
  /\ Exists (fun p => In "pseudo" p)
       (List.map fst (Yaml.declared_variables Yaml.optimize_yaml))
  /\ Exists (fun p => In "basis" p)
       (List.map fst (Yaml.declared_variables Yaml.optimize_yaml))
  /\ Forall (fun g => In g (List.map fst PyProject.optional_dependencies))
       [ "viz"; "viz-plotly"; "viz-matplotlib"; "viz-blender"; "viz-ase" ].
Proof.
  split; [| split; [| split; [| split]]].
  - repeat constructor; in_list.
  - reflexivity.
  - rewrite minimizer_variable_paths. apply Exists_cons_hd. in_list.
  - rewrite minimizer_variable_paths. apply Exists_cons_tl, Exists_cons_hd.
    in_list.
  - repeat constructor; in_list.
Qed.

End Subsystems.

(** ** The minimizer variables *)

Section MinimizerVariables.

Import Yaml.

Lemma Qlt_bool_true a b : Qlt_bool a b = true -> (a < b)%Q.
Proof.
  unfold Qlt_bool. intros H. apply Qnot_le_lt. intros L.
  apply Qle_bool_iff in L. rewrite L in H. discriminate.
Qed.

Lemma in_range_b_true v : in_range_b v = true -> in_range v.
Proof.
  unfold in_range_b, in_range. intros H.
  apply andb_prop in H as [H Hd]. apply andb_prop in H as [H Hp].
  apply andb_prop in H as [Hl Hu].
  repeat split.
  - now apply Qle_bool_iff.
  - now apply Qle_bool_iff.
  - now apply Qlt_bool_true.
  - now apply Qle_bool_iff.
Qed.

Lemma optimize_yaml_checked :
  List.forallb checked (nodes [] optimize_yaml) = true.
Proof. vm_compute. reflexivity. Qed.

(** C8. Every value of the shipped minimizer input that is declared with
    the keys [initial], [bounds] and [delta] is a well-formed variable
    with [bounds[0] <= initial <= bounds[1]] and
    [0 < delta <= bounds[1] - bounds[0]]. *)
Theorem minimizer_variables_in_range :
  forall path y,
    In (path, y) (nodes [] optimize_yaml) ->
    declares_variable y = true ->
    exists v, as_variable y = Some v /\ in_range v.
Proof.
  intros path y Hin Hdecl.
  pose proof (proj1 (forallb_forall checked _) optimize_yaml_checked _ Hin)
    as Hc.
  unfold checked in Hc. cbn [snd] in Hc. rewrite Hdecl in Hc. cbn in Hc.
  destruct (as_variable y) as [v |]; [| discriminate].
  exists v. split; [reflexivity | now apply in_range_b_true].
Qed.

Lemma minimizer_variables_in_range_witness :
  exists v,
    as_variable (var (-0.8) (-0.95) (-0.5) 0.08) = Some v /\ in_range v.
Proof.
  apply (minimizer_variables_in_range
           ["atom_Al"; "3s"; "basis"; "soft-confinement"; "ri"]).
  - in_list.
  - reflexivity.
Defined.

End MinimizerVariables.

(** ** The numpy requirements *)

Section NumpyRequirements.

Import Version Requirement.

Lemma requirements_well_formed :
  well_formed PyProject.build_requires = true
  /\ well_formed PyProject.dependencies = true
  /\ List.forallb (fun g => well_formed (snd g))
       PyProject.optional_dependencies = true.
Proof. repeat split; vm_compute; reflexivity. Qed.

Lemma numpy_build_bound :
  lower_bounds "numpy" PyProject.build_requires =
    [ mk_version 0 [2; 0; 0]%N (Some (Candidate, 1%N)) None None ].
Proof. reflexivity. Qed.

Lemma numpy_runtime_bound :
  lower_bounds "numpy" PyProject.dependencies = [ final [1; 20]%N ].
Proof. reflexivity. Qed.

(** The ordering agrees with the example chain of the version scheme. *)
Example scheme_example_order :
  option_map increasing
    (List.fold_right
       (fun s acc =>
          match parse_version s, acc with
          | Some v, Some l => Some (v :: l)
          | _, _ => None
          end)
       (Some [])
       [ "1.0.dev456"; "1.0a1"; "1.0a2.dev456"; "1.0a12.dev456"; "1.0a12";
         "1.0b1.dev456"; "1.0b2"; "1.0b2.post345.dev456"; "1.0b2.post345";
         "1.0rc1.dev456"; "1.0rc1"; "1.0"; "1.0.post456.dev34";
         "1.0.post456"; "1.1.dev1" ])
  = Some true.
Proof. reflexivity. Qed.

Example trailing_zeros_equal :
  compare (final [2; 0; 0]%N) (final [2]%N) = Eq.
Proof. reflexivity. Qed.

Lemma lex_not_Lt c d : lex c d <> Lt -> c <> Lt.
Proof. destruct c; cbn; congruence. Qed.

Lemma lex_Gt c d : c = Gt -> lex c d = Gt.
Proof. intros ->. reflexivity. Qed.

(** A release key that is not below [2] is above [1.20]. *)
Lemma release_above (r : list N) :
  compare_release r [2%N] <> Lt -> compare_release r [1; 20]%N = Gt.
Proof.
  destruct r as [| x r]; cbn [compare_release]; [congruence |].
  intros H. apply lex_not_Lt in H. apply lex_Gt.
  apply N.compare_gt_iff. rewrite N.compare_lt_iff in H. lia.
Qed.

Lemma ge_candidate_ge_runtime (v : version) :
  ge v (mk_version 0 [2; 0; 0]%N (Some (Candidate, 1%N)) None None) = true ->
  ge v (final [1; 20]%N) = true.
Proof.
  unfold ge, compare.
  change (key_release (mk_version 0 [2; 0; 0]%N (Some (Candidate, 1%N))
                         None None)) with [2%N].
  change (key_release (final [1; 20]%N)) with [1; 20]%N.
  cbn [epoch final].
  destruct (N.compare (epoch v) 0); cbn [lex]; try (intros; reflexivity).
  - destruct (compare_release (key_release v) [2%N]) eqn:E.
    + intros _. rewrite release_above by congruence. reflexivity.
    + cbn [lex]. discriminate.
    + intros _. rewrite release_above by congruence. reflexivity.
  - discriminate.
Qed.

(** C9. Every version that meets the build requirement on numpy
    ([>=2.0.0rc1]) meets the run-time requirement ([>=1.20]), and some
    version meets the run-time requirement but not the build
    requirement. *)
Theorem numpy_build_stronger_than_runtime :
  (forall v, satisfies "numpy" PyProject.build_requires v = true ->
             satisfies "numpy" PyProject.dependencies v = true)
  /\ (exists v, satisfies "numpy" PyProject.dependencies v = true
              /\ satisfies "numpy" PyProject.build_requires v = false).
Proof.
  split.
  - intros v. unfold satisfies.
    rewrite numpy_build_bound, numpy_runtime_bound. cbn [List.forallb].
    rewrite !andb_true_r. apply ge_candidate_ge_runtime.
  - exists (final [1; 26; 4]%N). split; reflexivity.
Qed.

Lemma numpy_build_stronger_than_runtime_witness :
  satisfies "numpy" PyProject.dependencies (final [2; 1; 0]%N) = true.
Proof.
  apply (proj1 numpy_build_stronger_than_runtime (final [2; 1; 0]%N)).
  reflexivity.
Defined.

End NumpyRequirements.

(** ** The tutorial's orbital plots and frontier states *)

Section TutorialNotebook.

Import Tutorial.
Local Open Scope Z_scope.

Lemma traverse_ok {A B} (f : A -> result B) (g : A -> B) (l : list A) :
  (forall x, In x l -> f x = ret (g x)) -> traverse f l = ret (List.map g l).
Proof.
  induction l as [| x l IH]; intros H; cbn [traverse List.map].
  - reflexivity.
  - rewrite (H x) by (left; reflexivity). cbn [bind ret].
    rewrite IH by (intros y Hy; apply H; right; exact Hy). reflexivity.
Qed.

Lemma range_member a b k : In k (range a b) <-> a <= k < b.
Proof.
  unfold range. rewrite in_map_iff. split.
  - intros (n & <- & Hn). apply in_seq in Hn. lia.
  - intros H. exists (Z.to_nat (k - a)). split; [lia |]. apply in_seq. lia.
Qed.

Lemma map_seq_shift (a : Z) (d n m : nat) :
  List.map (fun k => a + Z.of_nat k) (List.seq (m + d) n)
  = List.map (fun k => a + Z.of_nat d + Z.of_nat k) (List.seq m n).
Proof.
  revert m. induction n as [| n IH]; intros m; cbn [List.seq List.map].
  - reflexivity.
  - f_equal; [lia | apply (IH (S m))].
Qed.

Lemma range_app a b c :
  a <= b <= c -> (range a b ++ range b c)%list = range a c.
Proof.
  intros H. unfold range.
  replace (Z.to_nat (c - a)) with (Z.to_nat (b - a) + Z.to_nat (c - b))%nat
    by lia.
  rewrite seq_app, List.map_app. f_equal.
  rewrite (map_seq_shift a (Z.to_nat (b - a)) _ 0).
  apply List.map_ext. intros k. lia.
Qed.

Lemma enumerate_from_fst {A} (l : list A) (i : Z) :
  List.map fst (enumerate_from i l) = range i (i + Z.of_nat (length l)).
Proof.
  revert i. induction l as [| x l IH]; intros i; cbn [enumerate_from List.map length].
  - unfold range. replace (i + Z.of_nat 0 - i) with 0 by lia. reflexivity.
  - rewrite IH. rewrite <- (range_app i (i + 1)) by lia.
    replace (i + 1 + Z.of_nat (length l)) with (i + Z.of_nat (S (length l)))
      by lia.
    unfold range at 2. replace (i + 1 - i) with 1 by lia.
    change (Z.to_nat 1) with 1%nat. cbn [List.seq List.map app fst].
    f_equal. lia.
Qed.

Lemma enumerate_from_snd {A} (l : list A) (i : Z) :
  List.map snd (enumerate_from i l) = l.
Proof.
  revert i. induction l as [| x l IH]; intros i; cbn; [| rewrite IH];
    reflexivity.
Qed.

Lemma in_enumerate_from {A} (l : list A) (i : Z) io :
  In io (enumerate_from i l) -> i <= fst io < i + Z.of_nat (length l).
Proof.
  intros H. apply (in_map fst) in H. rewrite enumerate_from_fst in H.
  now apply range_member in H.
Qed.

Lemma select_four_columns nx i :
  1 <= nx -> 0 <= i < nx * 4 ->
  select nx (if nx =? 1 then AxesRow 4 else AxesGrid nx 4) i = ret (cell_of i).
Proof.
  intros Hnx Hi. unfold select, cell_of.
  assert (Hr : (i - 4) mod 4 = i mod 4)
    by (Z.div_mod_to_equations; lia).
  assert (Hr' : 0 <= i mod 4 < 4) by (apply Z.mod_pos_bound; lia).
  assert (Hc : 0 <= i / 4 < nx) by (Z.div_mod_to_equations; lia).
  rewrite Hr.
  destruct (nx =? 1) eqn:E.
  - apply Z.eqb_eq in E. subst nx.
    assert (i / 4 = 0) as -> by lia.
    cbn [getitem]. unfold index.
    replace ((0 <=? i mod 4) && (i mod 4 <? 4))%bool with true
      by (symmetry; apply andb_true_intro; split; lia).
    reflexivity.
  - cbn [getitem]. unfold index at 1.
    replace ((0 <=? i / 4) && (i / 4 <? nx))%bool with true
      by (symmetry; apply andb_true_intro; split; lia).
    cbn [bind ret getitem_item]. unfold index.
    replace ((0 <=? i mod 4) && (i mod 4 <? 4))%bool with true
      by (symmetry; apply andb_true_intro; split; lia).
    reflexivity.
Qed.

Lemma range_four a : range a (a + 4) = [a; a + 1; a + 2; a + 3].
Proof.
  unfold range. replace (a + 4 - a) with 4 by lia.
  change (Z.to_nat 4) with 4%nat. cbn [List.seq List.map].
  repeat f_equal; lia.
Qed.

Lemma range_one a : range a (a + 1) = [a].
Proof.
  unfold range. replace (a + 1 - a) with 1 by lia.
  change (Z.to_nat 1) with 1%nat. cbn [List.seq List.map].
  repeat f_equal; lia.
Qed.

Lemma row_major_cells (n : nat) :
  List.map cell_of (range 0 (Z.of_nat n * 4)) = row_major (Z.of_nat n) 4.
Proof.
  induction n as [| n IH].
  - reflexivity.
  - rewrite <- (range_app 0 (Z.of_nat n * 4)) by lia.
    rewrite List.map_app, IH. unfold row_major.
    rewrite <- (range_app 0 (Z.of_nat n) (Z.of_nat (S n))) by lia.
    rewrite flat_map_app. f_equal.
    replace (Z.of_nat (S n) * 4) with (Z.of_nat n * 4 + 4) by lia.
    replace (Z.of_nat (S n)) with (Z.of_nat n + 1) by lia.
    rewrite range_four, range_one. change (range 0 4) with [0; 1; 2; 3].
    cbn [List.map flat_map app]. unfold cell_of.
    repeat f_equal; Z.div_mod_to_equations; lia.
Qed.

Section PlotAtom.

Context {orbital : Type}.
Implicit Types atom : list orbital.

Lemma plot_atom_small atom :
  Z.of_nat (length atom) < 4 -> plot_atom atom = raise ZeroDivisionError.
Proof.
  intros H. unfold plot_atom, floordiv. cbn [Z.eqb bind ret].
  rewrite Z.div_small by lia. reflexivity.
Qed.

Lemma plot_atom_four_columns_eq atom :
  let no := Z.of_nat (length atom) in
  4 <= no -> no mod 4 < no / 4 ->
  let nx := if no / 4 * 4 <? no then no / 4 + 1 else no / 4 in
  plot_atom atom =
    ret (mk_figure (nx, 4)
           (List.map (fun io => (cell_of (fst io), snd io))
              (enumerate_from 0 atom))
           (List.map cell_of (range no (nx * 4))))
  /\ 1 <= nx /\ (nx - 1) * 4 < no <= nx * 4.
Proof.
  intros no H4 Hm nx.
  assert (Hq : 1 <= no / 4) by (Z.div_mod_to_equations; lia).
  assert (Hny : no / (no / 4) = 4).
  { pose proof (Z.mod_pos_bound no 4) as Hb.
    pose proof (Z.div_mod no 4) as Hd.
    symmetry. apply (Z.div_unique_pos no (no / 4) 4 (no mod 4)); lia. }
  assert (Hnx : 1 <= nx /\ (nx - 1) * 4 < no <= nx * 4).
  { subst nx. destruct (no / 4 * 4 <? no) eqn:E;
      [apply Z.ltb_lt in E | apply Z.ltb_ge in E];
      Z.div_mod_to_equations; lia. }
  split; [| exact Hnx].
  unfold plot_atom, floordiv. fold no. cbn [Z.eqb bind ret].
  destruct (no / 4 =? 0) eqn:E0; [apply Z.eqb_eq in E0; lia |].
  cbn [bind ret]. rewrite Hny. fold nx.
  assert (Hs : subplots nx 4 = ret (if nx =? 1 then AxesRow 4 else AxesGrid nx 4)).
  { unfold subplots.
    replace (nx <=? 0) with false by (symmetry; apply Z.leb_gt; lia).
    cbn. destruct (nx =? 1); reflexivity. }
  rewrite Hs. cbn [bind ret].
  rewrite (traverse_ok _ (fun io => (cell_of (fst io), snd io))).
  2:{ intros io Hio. apply in_enumerate_from in Hio.
      rewrite select_four_columns by (fold no in Hio; lia). reflexivity. }
  cbn [bind ret].
  destruct (no <? nx * 4) eqn:E.
  - rewrite (traverse_ok _ cell_of).
    2:{ intros j Hj. apply range_member in Hj.
        apply select_four_columns; lia. }
    reflexivity.
  - apply Z.ltb_ge in E. cbn [bind ret].
    unfold range. replace (Z.to_nat (nx * 4 - no)) with 0%nat by lia.
    reflexivity.
Qed.

(** X2. When the orbitals fill a grid of four columns (at least four
    orbitals, and [no mod 4 < no // 4]), the call succeeds: the images
    followed by the removed axes are the cells of the grid row by row,
    each once, the orbitals are drawn in their order, and the last row
    is not empty. *)
Theorem plot_atom_four_columns atom :
  let no := Z.of_nat (length atom) in
  4 <= no -> no mod 4 < no / 4 ->
  exists fig,
    plot_atom atom = ret fig
    /\ snd (shape fig) = 4
    /\ (fst (shape fig) - 1) * 4 < no <= fst (shape fig) * 4
    /\ (List.map fst (images fig) ++ removed fig)%list
       = row_major (fst (shape fig)) 4
    /\ List.map snd (images fig) = atom.
Proof.
  intros no H4 Hm.
  destruct (plot_atom_four_columns_eq atom H4 Hm) as (E & Hnx & Hb).
  fold no in E, Hb.
  set (nx := if no / 4 * 4 <? no then no / 4 + 1 else no / 4) in *.
  eexists. split; [exact E |]. cbn [shape images removed fst snd].
  split; [reflexivity |]. split; [exact Hb |]. split.
  - rewrite List.map_map. cbn [fst].
    rewrite <- (List.map_map fst cell_of), enumerate_from_fst.
    rewrite <- List.map_app, Z.add_0_l. fold no.
    rewrite range_app by lia.
    rewrite <- (Z2Nat.id nx) by lia. apply row_major_cells.
  - rewrite List.map_map. cbn [snd]. apply enumerate_from_snd.
Qed.

Lemma plot_atom_one_row atom :
  let no := Z.of_nat (length atom) in
  5 <= no <= 7 ->
  plot_atom atom =
    ret (mk_figure (1, no)
           (List.map (fun io => ((0, fst io mod 4), snd io))
              (enumerate_from 0 atom))
           []).
Proof.
  intros no H. subst no. by_length atom H; reflexivity.
Qed.

(** X3. With five, six or seven orbitals the call succeeds with one row
    of [no] axes, but the column is taken modulo four: orbital [i] is
    drawn on the axes of orbital [i mod 4], so the orbitals from the
    fifth on are drawn over the first ones, and nothing is removed. *)
Theorem plot_atom_overlap atom :
  let no := Z.of_nat (length atom) in
  5 <= no <= 7 ->
  exists fig,
    plot_atom atom = ret fig
    /\ shape fig = (1, no)
    /\ removed fig = []
    /\ List.map fst (images fig)
       = List.map (fun i => (0, i mod 4)) (range 0 no)
    /\ List.map snd (images fig) = atom.
Proof.
  intros no H. eexists. split; [apply plot_atom_one_row; exact H |].
  cbn [shape images removed]. repeat split.
  - rewrite List.map_map. cbn [fst].
    rewrite <- (List.map_map fst (fun i => (0, i mod 4))).
    rewrite enumerate_from_fst, Z.add_0_l. reflexivity.
  - rewrite List.map_map. cbn [snd]. apply enumerate_from_snd.
Qed.

Lemma plot_atom_index_error atom :
  let no := Z.of_nat (length atom) in
  no = 10 \/ no = 11 \/ no = 15 -> plot_atom atom = raise IndexError.
Proof.
  intros no H. subst no. by_length atom H; reflexivity.
Qed.

(** X1. The outcome of [plot_atom] by the number of orbitals: it raises
    [ZeroDivisionError] exactly below four orbitals and [IndexError]
    exactly for 10, 11 and 15, raises nothing else, and otherwise
    returns a grid of four to seven columns that has room for all
    orbitals and no empty row. *)
Theorem plot_atom_outcome atom :
  let no := Z.of_nat (length atom) in
  match plot_atom atom with
  | inl ZeroDivisionError => no < 4
  | inl IndexError => no = 10 \/ no = 11 \/ no = 15
  | inl _ => False
  | inr fig =>
      4 <= no /\ no <> 10 /\ no <> 11 /\ no <> 15
      /\ 1 <= fst (shape fig) /\ 4 <= snd (shape fig) <= 7
      /\ (fst (shape fig) - 1) * snd (shape fig) < no
         <= fst (shape fig) * snd (shape fig)
  end.
Proof.
  intros no.
  destruct (Z.lt_ge_cases no 4) as [Hlt | H4].
  { rewrite plot_atom_small by exact Hlt. exact Hlt. }
  destruct (Z.lt_ge_cases (no mod 4) (no / 4)) as [Hm | Hm].
  - destruct (plot_atom_four_columns_eq atom H4 Hm) as (E & Hnx & Hb).
    rewrite E. unfold ret. cbn [shape fst snd]. fold no in Hnx, Hb |- *.
    repeat split; try lia.
    all: intros E'; rewrite E' in Hm; vm_compute in Hm; discriminate.
  - assert (Hc : 5 <= no <= 7 \/ no = 10 \/ no = 11 \/ no = 15)
      by (Z.div_mod_to_equations; lia).
    destruct Hc as [Hc | Hc].
    + rewrite plot_atom_one_row by exact Hc. unfold ret.
      cbn [shape fst snd]. fold no. lia.
    + rewrite plot_atom_index_error by exact Hc. exact Hc.
Qed.

End PlotAtom.

Lemma plot_atom_four_columns_witness :
  exists fig,
    plot_atom (List.repeat tt 9) = ret fig
    /\ shape fig = (3, 4)
    /\ removed fig = [(2, 1); (2, 2); (2, 3)].
Proof.
  destruct (plot_atom_four_columns (List.repeat tt 9)) as (fig & E & _).
  - vm_compute. discriminate.
  - vm_compute. reflexivity.
  - exists fig. cbn in E. injection E as <-. repeat split.
Defined.

Lemma plot_atom_overlap_witness :
  exists fig,
    plot_atom ["1s"; "2s"; "2px"; "2py"; "2pz"] = ret fig
    /\ List.map fst (images fig) = [(0, 0); (0, 1); (0, 2); (0, 3); (0, 0)].
Proof.
  destruct (plot_atom_overlap ["1s"; "2s"; "2px"; "2py"; "2pz"])
    as (fig & E & _ & _ & Hi & _).
  - vm_compute. split; discriminate.
  - exists fig. split; [exact E | exact Hi].
Defined.

Section Eigenvalues.

Local Open Scope Q_scope.

Lemma positive_true x : positive x = true <-> 0 < x.
Proof.
  unfold positive. rewrite negb_true_iff. split.
  - intros H. apply Qnot_le_lt. intros L. apply Qle_bool_iff in L. congruence.
  - intros H. destruct (Qle_bool x 0) eqn:E; [| reflexivity].
    apply Qle_bool_iff in E. exfalso. exact (Qlt_not_le _ _ H E).
Qed.

Lemma positive_false x : positive x = false <-> x <= 0.
Proof.
  unfold positive. rewrite negb_false_iff. apply Qle_bool_iff.
Qed.

Lemma first_positive_from (eig : list Q) (s : Z) :
  match first (List.map fst
                 (List.filter snd (enumerate_from s (List.map positive eig))))
  with
  | inl IndexError => Forall (fun x => x <= 0) eig
  | inl _ => False
  | inr i =>
      (s <= i)%Z
      /\ exists x, nth_error eig (Z.to_nat (i - s)) = Some x /\ 0 < x
           /\ Forall (fun y => y <= 0) (firstn (Z.to_nat (i - s)) eig)
  end.
Proof.
  revert s. induction eig as [| x eig IH]; intros s.
  - constructor.
  - cbn [List.map enumerate_from List.filter snd].
    destruct (positive x) eqn:E.
    + cbn [List.map first fst ret]. split; [lia |].
      replace (s - s)%Z with 0%Z by lia.
      exists x. cbn. split; [reflexivity |].
      split; [now apply positive_true | constructor].
    + specialize (IH (s + 1)%Z).
      destruct (first _) as [[] | i]; try contradiction.
      * constructor; [now apply positive_false | exact IH].
      * destruct IH as (Hs & y & Hn & Hy & Hf). split; [lia |].
        replace (Z.to_nat (i - s)) with (S (Z.to_nat (i - (s + 1)))) by lia.
        exists y. cbn [nth_error firstn]. split; [exact Hn |].
        split; [exact Hy |].
        constructor; [now apply positive_false | exact Hf].
Qed.

(** X4. [idx_lumo] raises [IndexError] exactly when no eigenvalue is
    positive and raises nothing else; otherwise it is the index of a
    positive eigenvalue before which every eigenvalue is at most zero. *)
Theorem idx_lumo_first_positive (eig : list Q) :
  match idx_lumo eig with
  | inl IndexError => Forall (fun x => x <= 0) eig
  | inl _ => False
  | inr i =>
      (0 <= i)%Z
      /\ exists x, nth_error eig (Z.to_nat i) = Some x /\ 0 < x
           /\ Forall (fun y => y <= 0) (firstn (Z.to_nat i) eig)
  end.
Proof.
  pose proof (first_positive_from eig 0) as H.
  unfold idx_lumo, nonzero.
  destruct (first _) as [e | i]; [exact H |].
  rewrite Z.sub_0_r in H. exact H.
Qed.

Lemma sorted_app_le (l1 l2 : list Q) :
  StronglySorted Qle (l1 ++ l2)%list ->
  forall x y, In x l1 -> In y l2 -> x <= y.
Proof.
  induction l1 as [| a l1 IH]; cbn [app]; intros S x y Hx Hy.
  - contradiction.
  - inversion S as [| ? ? S' F]; subst.
    destruct Hx as [<- | Hx].
    + rewrite List.Forall_forall in F. apply F, in_or_app. right. exact Hy.
    + now apply (IH S' x y).
Qed.

(** X5. On eigenvalues in ascending order [idx_lumo] is the index of the
    smallest positive eigenvalue, and, when it is not the first index,
    the entry before it is the largest eigenvalue that is not
    positive. *)
Theorem idx_lumo_sorted (eig : list Q) (i : Z) :
  Sorted Qle eig ->
  idx_lumo eig = ret i ->
  exists lumo,
    nth_error eig (Z.to_nat i) = Some lumo
    /\ 0 < lumo
    /\ (forall x, In x eig -> 0 < x -> lumo <= x)
    /\ (forall homo,
          (1 <= i)%Z -> nth_error eig (Z.to_nat (i - 1)) = Some homo ->
          homo <= 0 /\ forall y, In y eig -> y <= 0 -> y <= homo).
Proof.
  intros S E.
  apply Sorted_StronglySorted in S; [| intros a b c; apply Qle_trans].
  pose proof (first_positive_from eig 0) as H.
  unfold idx_lumo, nonzero, ret in E. rewrite E in H. cbv beta iota in H.
  rewrite Z.sub_0_r in H.
  destruct H as (Hi & lumo & Hn & Hl & Hf).
  exists lumo. split; [exact Hn |]. split; [exact Hl |].
  destruct (nth_error_split _ _ Hn) as (l1 & l2 & -> & Hlen).
  rewrite <- Hlen, firstn_app, Nat.sub_diag, firstn_all in Hf.
  cbn [firstn] in Hf. rewrite app_nil_r in Hf.
  rewrite List.Forall_forall in Hf.
  assert (Hup : forall x, In x (lumo :: l2) -> lumo <= x).
  { intros x [<- | Hx]; [apply Qle_refl |].
    apply (sorted_app_le (l1 ++ [lumo]) l2).
    - now rewrite <- app_assoc.
    - apply in_or_app. right. left. reflexivity.
    - exact Hx. }
  split.
  - intros x Hx Hp. apply in_app_or in Hx as [Hx | Hx].
    + exfalso. apply (Qlt_not_le _ _ Hp). now apply Hf.
    + now apply Hup.
  - intros homo H1 Hh.
    assert (Hlt : (Z.to_nat (i - 1) < length l1)%nat) by lia.
    rewrite nth_error_app1 in Hh by exact Hlt.
    split; [apply Hf; eapply nth_error_In; exact Hh |].
    intros y Hy Hy0. apply in_app_or in Hy as [Hy | Hy].
    + destruct (nth_error_split _ _ Hh) as (a & b & Eab & Hla).
      assert (b = []) as ->.
      { destruct b; [reflexivity |]. exfalso.
        apply (f_equal (@length Q)) in Eab.
        rewrite length_app in Eab. cbn [length] in Eab. lia. }
      subst l1. apply in_app_or in Hy as [Hy | [<- | []]];
        [| apply Qle_refl].
      apply (sorted_app_le a ([homo] ++ lumo :: l2)).
      * now rewrite <- app_assoc in S.
      * exact Hy.
      * left. reflexivity.
    + exfalso. apply (Qlt_not_le _ _ Hl).
      apply Qle_trans with y; [now apply Hup | exact Hy0].
Qed.


End Eigenvalues.

Lemma idx_lumo_sorted_witness :
  exists lumo : Q,
    nth_error [-2; -0.5; 0.25; 3]%Q 2 = Some lumo /\ (0 < lumo)%Q.
Proof.
  destruct (idx_lumo_sorted [-2; -0.5; 0.25; 3]%Q 2) as (lumo & Hn & Hl & _).
  - repeat constructor; vm_compute; discriminate.
  - reflexivity.
  - exists lumo. split; [exact Hn | exact Hl].
Defined.


End TutorialNotebook.

(** ** The version ordering and lower bounds *)

Section VersionOrder.

Import Version Requirement.

Lemma ordering_eq_r {A} (cmp : A -> A -> comparison) :
  ordering cmp -> forall x y z, cmp y z = Eq -> cmp x y = cmp x z.
Proof.
  intros O x y z E.
  rewrite (ord_sym cmp O y x), (ord_sym cmp O z x).
  f_equal. now apply (ord_eq cmp O).
Qed.

Lemma ordering_lex {A} (f g : A -> A -> comparison) :
  ordering f -> ordering g -> ordering (fun x y => lex (f x y) (g x y)).
Proof.
  intros F G. split.
  - intros x y. rewrite (ord_sym f F x y), (ord_sym g G x y).
    destruct (f x y); reflexivity.
  - intros x y z. destruct (f x y) eqn:E; cbn [lex]; try discriminate.
    intros E'. rewrite (ord_eq f F _ _ z E), (ord_eq g G _ _ z E').
    reflexivity.
  - intros x y z. destruct (f x y) eqn:Exy; cbn [lex]; try discriminate.
    + intros Gxy. rewrite (ord_eq f F _ _ z Exy).
      destruct (f y z); cbn [lex]; try discriminate; [| reflexivity].
      intros Gyz. apply (ord_lt g G x y z Gxy Gyz).
    + intros _. destruct (f y z) eqn:Eyz; cbn [lex]; try discriminate.
      * intros _. rewrite <- (ordering_eq_r f F x y z Eyz), Exy.
        reflexivity.
      * intros _. rewrite (ord_lt f F x y z Exy Eyz). reflexivity.
Qed.

Lemma ordering_on {A B} (k : A -> B) (cmp : B -> B -> comparison) :
  ordering cmp -> ordering (fun x y => cmp (k x) (k y)).
Proof.
  intros O. split; intros.
  - apply (ord_sym cmp O).
  - now apply (ord_eq cmp O).
  - now apply (ord_lt cmp O _ (k y)).
Qed.

Lemma ordering_N : ordering N.compare.
Proof.
  split.
  - intros x y. apply N.compare_antisym.
  - intros x y z E. apply N.compare_eq in E. now subst.
  - intros x y z. rewrite !N.compare_lt_iff. lia.
Qed.

Lemma ordering_ext {A} (cmp : A -> A -> comparison) :
  ordering cmp -> ordering (compare_ext cmp).
Proof.
  intros O. split.
  - intros [| a |] [| b |]; cbn; try reflexivity. apply (ord_sym cmp O).
  - intros [| a |] [| b |] [| c |]; cbn; try discriminate; try reflexivity.
    apply (ord_eq cmp O).
  - intros [| a |] [| b |] [| c |]; cbn; try discriminate; try reflexivity.
    apply (ord_lt cmp O).
Qed.

Lemma ordering_release : ordering compare_release.
Proof.
  split.
  - intros x. induction x as [| a x IH]; intros [| b y]; cbn;
      try reflexivity.
    rewrite IH, (N.compare_antisym a b). destruct (a ?= b)%N; reflexivity.
  - intros x. induction x as [| a x IH]; intros [| b y] [| c z]; cbn;
      try discriminate; try reflexivity.
    destruct (a ?= b)%N eqn:E; cbn [lex]; try discriminate.
    apply N.compare_eq in E. subst b. intros E'. now rewrite (IH y z E').
  - intros x. induction x as [| a x IH]; intros [| b y] [| c z]; cbn;
      try discriminate; try reflexivity.
    destruct (a ?= b)%N eqn:Eab; cbn [lex]; try discriminate.
    + apply N.compare_eq in Eab. subst b. intros Hxy.
      destruct (a ?= c)%N; cbn [lex]; try discriminate; [| reflexivity].
      intros Hyz. now apply (IH y z).
    + intros _. destruct (b ?= c)%N eqn:Ebc; cbn [lex]; try discriminate.
      * apply N.compare_eq in Ebc. subst c. intros _. now rewrite Eab.
      * intros _.
        rewrite (proj2 (N.compare_lt_iff a c)); [reflexivity |].
        exact (N.lt_trans a b c Eab Ebc).
Qed.

Lemma ordering_pre : ordering compare_pre.
Proof.
  unfold compare_pre.
  apply (ordering_lex (fun p q => N.compare (kind_rank (fst p)) (kind_rank (fst q)))
                      (fun p q => N.compare (snd p) (snd q))).
  - apply (ordering_on (fun p : pre_kind * N => kind_rank (fst p))), ordering_N.
  - apply (ordering_on (fun p : pre_kind * N => snd p)), ordering_N.
Qed.

Lemma ordering_compare : ordering compare.
Proof.
  unfold compare.
  repeat first
    [ apply (ordering_on epoch), ordering_N
    | apply (ordering_on key_release), ordering_release
    | apply (ordering_on key_pre), ordering_ext, ordering_pre
    | apply (ordering_on key_post), ordering_ext, ordering_N
    | apply (ordering_on key_dev), ordering_ext, ordering_N
    | match goal with
      | |- ordering (fun v w => lex (@?f v w) (@?g v w)) =>
          apply (ordering_lex f g)
      end ].
Qed.

Lemma ge_trans (u v w : version) :
  ge u v = true -> ge v w = true -> ge u w = true.
Proof.
  unfold ge. pose proof ordering_compare as O.
  destruct (compare u w) eqn:Euw; try reflexivity.
  destruct (compare u v) eqn:Euv; try discriminate.
  - rewrite <- (ord_eq compare O u v w Euv), Euw. discriminate.
  - intros _. destruct (compare v w) eqn:Evw; try discriminate; intros _.
    + rewrite (ordering_eq_r compare O u v w Evw) in Euv. congruence.
    + rewrite (ord_sym compare O v u) in Euv.
      destruct (compare v u) eqn:Evu; try discriminate.
      rewrite (ord_lt compare O v u w Evu Euw) in Evw. discriminate.
Qed.

(** X7. Every requirement string of [pyproject.toml] is a name, with
    optional extras, alone or with one lower bound.  So in every table a
    version that satisfies the requirement on a package keeps satisfying
    it when it is replaced by a later one. *)
Theorem requirements_are_lower_bounds :
  forall reqs, In reqs PyProject.requirement_tables ->
    well_formed reqs = true
    /\ forall pkg v w,
         satisfies pkg reqs v = true -> ge w v = true ->
         satisfies pkg reqs w = true.
Proof.
  intros reqs Hin. split.
  - revert reqs Hin. apply forallb_forall. vm_compute. reflexivity.
  - intros pkg v w Hv Hw. unfold satisfies in *.
    rewrite forallb_forall in Hv |- *. intros b Hb.
    apply (ge_trans w v b Hw). now apply Hv.
Qed.

Lemma requirements_are_lower_bounds_witness :
  satisfies "scipy" PyProject.dependencies (final [1; 11; 4]%N) = true.
Proof.
  apply (proj2 (requirements_are_lower_bounds PyProject.dependencies
                  ltac:(right; left; reflexivity))
           "scipy" (final [1; 5]%N) (final [1; 11; 4]%N));
    reflexivity.
Defined.

End VersionOrder.

(** ** The loops over Cython sources *)

Section CythonLoops.

Import CMake Build.






End CythonLoops.

(** ** Consistency of the metadata tables *)

Section MetadataTables.

Import Version Requirement Metadata.

(** X8. The group [viz] holds exactly the requirements of the groups
    [viz-plotly], [viz-matplotlib], [viz-blender] and [viz-ase]
    together. *)
Theorem viz_is_union_of_backends :
  forall r,
    In r (PyProject.group "viz")
    <-> In r (PyProject.group "viz-plotly")
        \/ In r (PyProject.group "viz-matplotlib")
        \/ In r (PyProject.group "viz-blender")
        \/ In r (PyProject.group "viz-ase").
Proof.
  intros r. split.
  - intros H. each_member H.
    all: first [ left; in_list | right; left; in_list
               | right; right; right; in_list ].
  - intros [H | [H | [H | H]]]; each_member H; in_list.
Qed.

Lemma viz_is_union_of_backends_witness : In "ase" (PyProject.group "viz").
Proof.
  apply (proj2 (viz_is_union_of_backends "ase")).
  right; right; right. in_list.
Defined.

(** X9. The Python versions that the classifiers advertise are 3.9 to
    3.12; each satisfies [requires-python], whose bound is the lowest of
    them, and the tox environments and the black target versions name
    exactly these versions. *)
Theorem python_versions_agree :
  supported_pythons
    = [ final [3; 9]%N; final [3; 10]%N; final [3; 11]%N; final [3; 12]%N ]
  /\ (exists bound,
        parse_lower_bound PyProject.requires_python = Some bound
        /\ List.hd_error supported_pythons = Some bound
        /\ Forall (fun v => ge v bound = true) supported_pythons)
  /\ List.map env_python (split_on "," PyProject.envlist)
     = List.map Some supported_pythons
  /\ List.map env_python PyProject.target_version
     = List.map Some supported_pythons.
Proof.
  split; [reflexivity |]. split; [| split; reflexivity].
  exists (final [3; 9]%N). split; [reflexivity |]. split; [reflexivity |].
  repeat constructor.
Qed.

(** X10. Every console script points into a package that the wheel
    ships, and the packages that coverage measures and that isort takes
    as first party are the shipped packages. *)
Theorem scripts_and_first_party_packages :
  Forall (fun script =>
            In ("src/" +:+ top_level (snd script)) PyProject.wheel_packages)
    PyProject.scripts
  /\ forall p,
       (In p PyProject.source_pkgs
        <-> In p (List.map basename PyProject.wheel_packages))
       /\ (In p PyProject.known_first_party
           <-> In p (List.map basename PyProject.wheel_packages)).
Proof.
  split.
  - repeat constructor; in_list.
  - intros p. split; split; intros H; each_member H; in_list.
Qed.

Lemma scripts_and_first_party_packages_witness :
  In "sisl_toolbox" (List.map basename PyProject.wheel_packages).
Proof.
  apply (proj1 (proj2 (proj2 scripts_and_first_party_packages
                         "sisl_toolbox"))).
  in_list.
Defined.

End MetadataTables.
